(** * Car genome decoding, control formulas and parking loss

    A shallow embedding of [src/lib/carGenetic.ts] and the properties its
    specification states about it.

    Conventions of the embedding:
    - a JavaScript [number] that holds a measured or decoded quantity is a
      real number ([R]): arithmetic is exact, rounding of IEEE doubles is
      not modelled;
    - a JavaScript [number] that is an array index, a length or the value of
      a run of bits is a [nat] or a [Z];
    - [throw new Error (msg)] is the [Throw msg] outcome of the [result]
      monad, which every caller propagates as JavaScript does. *)

From Equations Require Import Equations.
From Stdlib Require Import String List Arith ZArith Reals Lia Lra.
Import ListNotations.

Set Implicit Arguments.

(** ** Outcomes: a value or a thrown [Error] *)

Inductive result (A : Type) : Type :=
| Ok (value : A)
| Throw (message : string).

Arguments Ok {A} value.
Arguments Throw {A} message.

Definition bind {A B : Type} (r : result A) (k : A -> result B) : result B :=
  match r with
  | Ok a => k a
  | Throw message => Throw message
  end.

Notation "x <- r ;; k" := (bind r (fun x => k))
  (at level 61, r at next level, right associativity).

Definition throws {A : Type} (r : result A) : Prop :=
  exists message, r = Throw message.

Definition returns {A : Type} (r : result A) : Prop :=
  exists value, r = Ok value.

(** ** Data model *)

Definition number : Type := R.

(** Modelled from the spec: the type [Gene] is imported from [./genetic],
    which is not part of the sources at hand; the specification describes a
    gene as a single binary digit (0 or 1). *)
Inductive Gene : Type := G0 | G1.

(** The numeric value of a gene, as used in [gene * 2 ** k]. *)
Definition gene_value (gene : Gene) : Z :=
  match gene with G0 => 0 | G1 => 1 end.

(** Truthiness of a gene, as used in [genes[i] ? a : b]. *)
Definition gene_truthy (gene : Gene) : bool :=
  match gene with G0 => false | G1 => true end.

Definition Genome : Type := list Gene.
Definition SensorValues : Type := list number.
Definition FormulaCoefficients : Type := list number.

(** [FormulaResult] is the literal type [-1 | 0 | 1]; the functions below
    return these integers. *)
Definition FormulaResult : Type := Z.

Record DecodedGenome : Type := mkDecodedGenome {
  engineFormulaCoefficients : FormulaCoefficients;
  wheelsFormulaCoefficients : FormulaCoefficients
}.

(** Modelled from the spec: [NumVec3] and [RectanglePoints] come from
    [../types/vectors], which is not part of the sources at hand.  A point
    is a triple (x, y, z), destructured positionally by [distance]; a
    rectangle has the four named corners [fl], [fr], [br], [bl]. *)
Definition NumVec3 : Type := (number * number * number)%type.

Record RectanglePoints : Type := mkRectanglePoints {
  fl : NumVec3;
  fr : NumVec3;
  br : NumVec3;
  bl : NumVec3
}.

Record LossParams : Type := mkLossParams {
  wheelsPosition : RectanglePoints;
  parkingLotCorners : RectanglePoints
}.

(** ** Constants *)

Definition CAR_SENSORS_NUM : nat := 16.
Definition BIAS_UNITS : nat := 1.
Definition GENES_PER_NUMBER : nat := 8.

Definition SIGN_GENE_INDEX : nat := 0.
Definition EXPONENT_GENE_INDEX : nat := 1.
Definition FRACTION_GENE_INDEX : nat := 4.
Definition EXPONENT_BIAS : Z :=
  (2 ^ (Z.of_nat FRACTION_GENE_INDEX - Z.of_nat EXPONENT_GENE_INDEX - 1) - 1)%Z.

Definition ENGINE_FORMULA_GENES_NUM : nat :=
  (CAR_SENSORS_NUM + BIAS_UNITS) * GENES_PER_NUMBER.
Definition WHEELS_FORMULA_GENES_NUM : nat :=
  (CAR_SENSORS_NUM + BIAS_UNITS) * GENES_PER_NUMBER.
Definition GENOME_LENGTH : nat :=
  ENGINE_FORMULA_GENES_NUM + WHEELS_FORMULA_GENES_NUM.

(** ** Array primitives *)

(** [Array.prototype.slice (start, end)] for non-negative arguments: both
    bounds are clipped to the length, and an empty array is returned when
    [end <= start]. *)
Definition slice {A : Type} (l : list A) (start stop : nat) : list A :=
  firstn (stop - start) (skipn start l).

(** [Array.prototype.slice (start)]: everything from [start] on. *)
Definition slice_from {A : Type} (l : list A) (start : nat) : list A :=
  skipn start l.

(** [Array.prototype.reduce (callback, initial)] with the three-argument
    callback (accumulator, element, index); [reduce_from] carries the index
    of the next element. *)
Fixpoint reduce_from {A B : Type} (callback : B -> A -> nat -> B)
    (index : nat) (l : list A) (acc : B) : B :=
  match l with
  | [] => acc
  | x :: rest => reduce_from callback (S index) rest (callback acc x index)
  end.

Definition reduce {A B : Type} (callback : B -> A -> nat -> B)
    (l : list A) (initial : B) : B :=
  reduce_from callback 0 l initial.

(** ** Bit-number codec *)

Definition binaryArrayToNumber (genes : list Gene) : Z :=
  reduce
    (fun (result : Z) (gene : Gene) (geneIndex : nat) =>
       (result + gene_value gene *
                 2 ^ (Z.of_nat (length genes) - Z.of_nat geneIndex - 1))%Z)
    genes 0%Z.

Definition decodeNumber (genes : list Gene) : result number :=
  if negb (length genes =? GENES_PER_NUMBER) then
    Throw "Wrong number of genes in the number genome"%string
  else
    let sign : Z :=
      if gene_truthy (nth SIGN_GENE_INDEX genes G0) then (-1)%Z else 1%Z in
    let exponentGenes := slice genes EXPONENT_GENE_INDEX FRACTION_GENE_INDEX in
    let exponent := (binaryArrayToNumber exponentGenes - EXPONENT_BIAS)%Z in
    let fractionGenes := slice_from genes FRACTION_GENE_INDEX in
    let fraction := binaryArrayToNumber fractionGenes in
    Ok (IZR sign * IZR fraction * powerRZ 10 exponent)%R.

(** ** Genome decoder *)

(** The [for] loop of [decodeNumbers]: [numberIndex] advances by
    [GENES_PER_NUMBER] while it is below [genes.length]; [numbers] is the
    array being filled by [push]. *)
Equations? decodeNumbers_for (genes : list Gene) (numberIndex : nat)
    (numbers : list number) : result (list number)
    by wf (length genes - numberIndex) lt :=
  decodeNumbers_for genes numberIndex numbers
    with lt_dec numberIndex (length genes) := {
    | left _
        with decodeNumber
               (slice genes numberIndex (numberIndex + GENES_PER_NUMBER)) := {
        | Ok decoded :=
            decodeNumbers_for genes (numberIndex + GENES_PER_NUMBER)
                              (numbers ++ [decoded]);
        | Throw message := Throw message };
    | right _ := Ok numbers }.
Proof. unfold GENES_PER_NUMBER. lia. Qed.

Definition decodeNumbers (genes : list Gene) : result (list number) :=
  if negb (length genes mod GENES_PER_NUMBER =? 0) then
    Throw "Wrong number of genes in the numbers genome"%string
  else
    decodeNumbers_for genes 0 [].

Definition decodeGenome (genome : Genome) : result DecodedGenome :=
  let engineGenes := slice genome 0 ENGINE_FORMULA_GENES_NUM in
  let wheelsGenes :=
    slice genome ENGINE_FORMULA_GENES_NUM
          (ENGINE_FORMULA_GENES_NUM + WHEELS_FORMULA_GENES_NUM) in
  engineCoefficients <- decodeNumbers engineGenes ;;
  wheelsCoefficients <- decodeNumbers wheelsGenes ;;
  Ok {| engineFormulaCoefficients := engineCoefficients;
        wheelsFormulaCoefficients := wheelsCoefficients |}.

(** ** Formula evaluator *)

(** [Array.prototype.forEach] with a two-argument callback (element, index)
    whose only effect is to update one captured variable: the callback is
    given the current value of that variable and returns the new one. *)
Fixpoint forEach_from {A St : Type} (callback : A -> nat -> St -> St)
    (index : nat) (l : list A) (state : St) : St :=
  match l with
  | [] => state
  | x :: rest => forEach_from callback (S index) rest (callback x index state)
  end.

Definition forEach {A St : Type} (callback : A -> nat -> St -> St)
    (l : list A) (state : St) : St :=
  forEach_from callback 0 l state.

Definition linearPolynomial (coefficients variables : list number)
    : result number :=
  if negb (length coefficients =? length variables + 1) then
    Throw "Incompatible number polynomial coefficients and variables"%string
  else
    let result := 0%R in
    let result :=
      forEach
        (fun (coefficient : number) (coefficientIndex : nat) (result : number) =>
           if coefficientIndex <? length variables then
             (result + coefficient * nth coefficientIndex variables 0)%R
           else
             (result + coefficient)%R)
        coefficients result in
    Ok result.

(** [Math.E]. *)
Definition Math_E : number := exp 1.

(** [Math.E ** -x]: a real power of a positive base. *)
Definition sigmoid (x : number) : number :=
  (1 / (1 + Rpower Math_E (- x)))%R.

(** The second parameter has the default value 0.5: [None] stands for a
    call that leaves it out. *)
Definition sigmoidToCategorical (sigmoidValue : number)
    (margin : option number) : FormulaResult :=
  let aroundZeroMargin :=
    match margin with Some m => m | None => 0.5%R end in
  if Rgt_dec sigmoidValue (0.5 + aroundZeroMargin / 2)%R then 1%Z
  else if Rlt_dec sigmoidValue (0.5 - aroundZeroMargin / 2)%R then (-1)%Z
  else 0%Z.

Definition engineFormula (genome : Genome) (sensors : SensorValues)
    : result FormulaResult :=
  decoded <- decodeGenome genome ;;
  rawResult <- linearPolynomial (engineFormulaCoefficients decoded) sensors ;;
  let normalizedResult := sigmoid rawResult in
  let categoricalResult := sigmoidToCategorical normalizedResult None in
  Ok categoricalResult.

Definition wheelsFormula (genome : Genome) (sensors : SensorValues)
    : result FormulaResult :=
  decoded <- decodeGenome genome ;;
  rawResult <- linearPolynomial (wheelsFormulaCoefficients decoded) sensors ;;
  let normalizedResult := sigmoid rawResult in
  let categoricalResult := sigmoidToCategorical normalizedResult None in
  Ok categoricalResult.

(** ** Loss function *)

(** The XZ distance between two points; the pattern binds the Y components
    and never uses them. *)
Definition distance (from to : NumVec3) : number :=
  let '(fromX, fromY, fromZ) := from in
  let '(toX, toY, toZ) := to in
  sqrt ((fromX - toX) ^ 2 + (fromZ - toZ) ^ 2)%R.

Definition loss (params : LossParams) : number :=
  let flWheel := fl (wheelsPosition params) in
  let frWheel := fr (wheelsPosition params) in
  let brWheel := br (wheelsPosition params) in
  let blWheel := bl (wheelsPosition params) in
  let flCorner := fl (parkingLotCorners params) in
  let frCorner := fr (parkingLotCorners params) in
  let brCorner := br (parkingLotCorners params) in
  let blCorner := bl (parkingLotCorners params) in
  let flDistance := distance flWheel flCorner in
  let frDistance := distance frWheel frCorner in
  let brDistance := distance brWheel brCorner in
  let blDistance := distance blWheel blCorner in
  ((flDistance + frDistance + brDistance + blDistance) / 4)%R.

(** ** Reference definitions, following the words of the specification *)

(** Bit [i] of a gene block, as a number. *)
Definition bit (genes : list Gene) (i : nat) : Z :=
  gene_value (nth i genes G0).

(** "bit 0 = sign (0 = positive, 1 = negative)". *)
Definition spec_sign (genes : list Gene) : Z :=
  match nth 0 genes G0 with G0 => 1 | G1 => -1 end.

(** "bits 1-3 as an unsigned binary integer, weights 4, 2, 1". *)
Definition spec_exponent (genes : list Gene) : Z :=
  4 * bit genes 1 + 2 * bit genes 2 + bit genes 3.

(** "bits 4-7 as an unsigned binary integer, weights 8, 4, 2, 1". *)
Definition spec_fraction (genes : list Gene) : Z :=
  8 * bit genes 4 + 4 * bit genes 5 + 2 * bit genes 6 + bit genes 7.

(** "sign x fraction x 10^(exponent - 3)". *)
Definition spec_decodeNumber (genes : list Gene) : number :=
  (IZR (spec_sign genes) * IZR (spec_fraction genes)
   * powerRZ 10 (spec_exponent genes - 3))%R.

(** The sum of [f 0], ..., [f (n - 1)], added in this order. *)
Fixpoint sum_upto (f : nat -> number) (n : nat) : number :=
  match n with
  | O => 0%R
  | S m => (sum_upto f m + f m)%R
  end.

(** "raw = sum of coefficients[i] x sensorValues[i] for i < n, then add the
    final coefficient (index n)", with n the number of sensor values. *)
Definition spec_raw (coefficients sensorValues : list number) : number :=
  (sum_upto (fun i => nth i coefficients 0 * nth i sensorValues 0)
            (length sensorValues)
   + nth (length sensorValues) coefficients 0)%R.

(** "normalized = 1 / (1 + e^(-raw))". *)
Definition spec_normalized (raw : number) : number :=
  (1 / (1 + exp (- raw)))%R.

(** "sqrt((x1-x2)^2 + (z1-z2)^2)" on the x and z components. *)
Definition spec_planar (x1 z1 x2 z2 : number) : number :=
  sqrt ((x1 - x2) * (x1 - x2) + (z1 - z2) * (z1 - z2))%R.

(** Sub-block [i] of a gene array: the genes at indices 8i, ..., 8i+7. *)
Definition sub_block (genes : list Gene) (i : nat) : list Gene :=
  slice genes (GENES_PER_NUMBER * i) (GENES_PER_NUMBER * i + GENES_PER_NUMBER).

(** The numbers of the [count] sub-blocks that start at [numberIndex]. *)
Definition decoded_from (genes : list Gene) (numberIndex count : nat)
    : list number :=
  map (fun i => spec_decodeNumber
                  (slice genes (numberIndex + GENES_PER_NUMBER * i)
                         (numberIndex + GENES_PER_NUMBER * i + GENES_PER_NUMBER)))
      (seq 0 count).

(** The callback of [linearPolynomial], for [variables] fixed. *)
Definition step_of (variables : list number)
    (coefficient : number) (coefficientIndex : nat) (result : number)
    : number :=
  if coefficientIndex <? length variables then
    (result + coefficient * nth coefficientIndex variables 0)%R
  else
    (result + coefficient)%R.

(** The components of a point. *)
Definition px (p : NumVec3) : number := fst (fst p).
Definition py (p : NumVec3) : number := snd (fst p).
Definition pz (p : NumVec3) : number := snd p.

(** The planar distance between two points, on their x and z components. *)
Definition spec_distance (p q : NumVec3) : number :=
  spec_planar (px p) (pz p) (px q) (pz q).

(** "The arithmetic mean of the four distances" between the corners with
    matching labels. *)
Definition spec_loss (wheels corners : RectanglePoints) : number :=
  ((spec_distance (fl wheels) (fl corners)
    + spec_distance (fr wheels) (fr corners)
    + spec_distance (br wheels) (br corners)
    + spec_distance (bl wheels) (bl corners)) / 4)%R.

(** The point at the offset (3, y - py p, 4) from [p]: x and z are moved by
    3 and 4, and the y component is replaced by [y]. *)
Definition offset_3_4 (p : NumVec3) (y : number) : NumVec3 :=
  ((px p + 3)%R, y, (pz p + 4)%R).

(** The same point with another y component. *)
Definition with_y (p : NumVec3) (y : number) : NumVec3 :=
  (px p, y, pz p).

(** ** Auxiliary definitions for the further properties *)


(** A point moved by the vector [shift]. *)
Definition translate_point (shift p : NumVec3) : NumVec3 :=
  ((px p + px shift)%R, (py p + py shift)%R, (pz p + pz shift)%R).

(** A rectangle with its four corners moved by the vector [shift]. *)
Definition translate (shift : NumVec3) (r : RectanglePoints) : RectanglePoints :=
  {| fl := translate_point shift (fl r); fr := translate_point shift (fr r);
     br := translate_point shift (br r); bl := translate_point shift (bl r) |}.




(** Closed powers of ten are unfolded to products and left to [lra]. *)
Ltac closed_power :=
  cbv [powerRZ Pos.to_nat Pos.iter_op Nat.add pow]; lra.

(** * Properties *)

(** ** Slices *)

Lemma slice_length {A : Type} (l : list A) (start stop : nat) :
  length (slice l start stop) = Nat.min (stop - start) (length l - start).
Proof.
  unfold slice. rewrite length_firstn, length_skipn. reflexivity.
Qed.

(** ** The bit-number codec *)

Lemma binaryArrayToNumber_3 (a b c : Gene) :
  binaryArrayToNumber [a; b; c]
  = (4 * gene_value a + 2 * gene_value b + gene_value c)%Z.
Proof.
  unfold binaryArrayToNumber, reduce.
  cbn [reduce_from length Z.of_nat Pos.of_succ_nat Pos.succ].
  change (2 ^ (3 - 0 - 1))%Z with 4%Z.
  change (2 ^ (3 - 1 - 1))%Z with 2%Z.
  change (2 ^ (3 - 2 - 1))%Z with 1%Z.
  lia.
Qed.

Lemma binaryArrayToNumber_4 (a b c d : Gene) :
  binaryArrayToNumber [a; b; c; d]
  = (8 * gene_value a + 4 * gene_value b + 2 * gene_value c + gene_value d)%Z.
Proof.
  unfold binaryArrayToNumber, reduce.
  cbn [reduce_from length Z.of_nat Pos.of_succ_nat Pos.succ].
  change (2 ^ (4 - 0 - 1))%Z with 8%Z.
  change (2 ^ (4 - 1 - 1))%Z with 4%Z.
  change (2 ^ (4 - 2 - 1))%Z with 2%Z.
  change (2 ^ (4 - 3 - 1))%Z with 1%Z.
  lia.
Qed.

Lemma length_8_inv {A : Type} (l : list A) :
  length l = 8 ->
  exists a b c d e f g h, l = [a; b; c; d; e; f; g; h].
Proof.
  intros H.
  do 8 (destruct l as [|? l]; [discriminate H|]).
  destruct l; [|discriminate H].
  do 8 eexists. reflexivity.
Qed.

Lemma decodeNumber_ok (genes : list Gene) :
  length genes = GENES_PER_NUMBER ->
  decodeNumber genes = Ok (spec_decodeNumber genes).
Proof.
  intros H. destruct (length_8_inv genes H)
    as (b0 & b1 & b2 & b3 & b4 & b5 & b6 & b7 & ->).
  unfold decodeNumber, spec_decodeNumber, spec_sign, spec_exponent,
    spec_fraction, bit.
  cbn [length Nat.eqb GENES_PER_NUMBER negb nth SIGN_GENE_INDEX
       slice slice_from skipn firstn Nat.sub
       EXPONENT_GENE_INDEX FRACTION_GENE_INDEX].
  rewrite binaryArrayToNumber_3, binaryArrayToNumber_4.
  change EXPONENT_BIAS with 3%Z.
  destruct b0; reflexivity.
Qed.

Lemma decodeNumber_throw (genes : list Gene) :
  length genes <> GENES_PER_NUMBER ->
  decodeNumber genes = Throw "Wrong number of genes in the number genome"%string.
Proof.
  intros H. unfold decodeNumber.
  apply Nat.eqb_neq in H. rewrite H. reflexivity.
Qed.

Lemma throws_not_returns {A : Type} (r : result A) :
  throws r -> ~ returns r.
Proof. intros [message ->] [value Hv]. discriminate Hv. Qed.

Lemma spec_exponent_range (genes : list Gene) :
  (0 <= spec_exponent genes <= 7)%Z.
Proof.
  unfold spec_exponent, bit.
  destruct (nth 1 genes G0), (nth 2 genes G0), (nth 3 genes G0); cbn; lia.
Qed.

Lemma spec_fraction_range (genes : list Gene) :
  (0 <= spec_fraction genes <= 15)%Z.
Proof.
  unfold spec_fraction, bit.
  destruct (nth 4 genes G0), (nth 5 genes G0), (nth 6 genes G0),
    (nth 7 genes G0); cbn; lia.
Qed.

(** C2.  On every sequence of exactly 8 genes [decodeNumber] returns
    sign x fraction x 10^(exponent - 3), where the sign is +1 when gene 0 is
    0 and -1 when it is 1, the exponent is the value 0..7 of bits 1-3 read
    most significant bit first and the fraction is the value 0..15 of bits
    4-7 read most significant bit first.  In particular [0,0,0,0,0,0,0,1]
    decodes to 0.001 and [1,1,1,1,1,1,1,1] to -150000. *)
Theorem decodeNumber_layout :
  (forall genes : list Gene,
      length genes = 8 ->
      decodeNumber genes = Ok (spec_decodeNumber genes)
      /\ (0 <= spec_exponent genes <= 7)%Z
      /\ (0 <= spec_fraction genes <= 15)%Z)
  /\ decodeNumber [G0; G0; G0; G0; G0; G0; G0; G1] = Ok 0.001%R
  /\ decodeNumber [G1; G1; G1; G1; G1; G1; G1; G1] = Ok (-150000)%R.
Proof.
  split; [|split].
  - intros genes Hlen. split; [|split].
    + apply decodeNumber_ok. exact Hlen.
    + apply spec_exponent_range.
    + apply spec_fraction_range.
  - rewrite decodeNumber_ok by reflexivity. f_equal.
    unfold spec_decodeNumber. cbn. closed_power.
  - rewrite decodeNumber_ok by reflexivity. f_equal.
    unfold spec_decodeNumber. cbn. closed_power.
Qed.

(** The layout theorem at the block 0 101 0110: sign +1, exponent 5,
    fraction 6. *)
Lemma decodeNumber_layout_witness :
  length [G0; G1; G0; G1; G0; G1; G1; G0] = 8
  /\ decodeNumber [G0; G1; G0; G1; G0; G1; G1; G0]
     = Ok (spec_decodeNumber [G0; G1; G0; G1; G0; G1; G1; G0]).
Proof.
  split; [reflexivity|].
  apply (proj1 decodeNumber_layout [G0; G1; G0; G1; G0; G1; G1; G0]).
  reflexivity.
Defined.

(** ** The block decoder *)

Lemma decodeNumbers_for_step (genes : list Gene) (numberIndex : nat)
    (numbers : list number) :
  decodeNumbers_for genes numberIndex numbers
  = if lt_dec numberIndex (length genes) then
      match decodeNumber
              (slice genes numberIndex (numberIndex + GENES_PER_NUMBER)) with
      | Ok decoded =>
          decodeNumbers_for genes (numberIndex + GENES_PER_NUMBER)
                            (numbers ++ [decoded])
      | Throw message => Throw message
      end
    else Ok numbers.
Proof.
  simp decodeNumbers_for.
  destruct (lt_dec numberIndex (length genes)); cbn.
  - destruct (decodeNumber _); reflexivity.
  - reflexivity.
Qed.

Lemma decoded_from_S (genes : list Gene) (numberIndex count : nat) :
  decoded_from genes numberIndex (S count)
  = spec_decodeNumber (slice genes numberIndex (numberIndex + GENES_PER_NUMBER))
    :: decoded_from genes (numberIndex + GENES_PER_NUMBER) count.
Proof.
  unfold decoded_from. cbn [seq map].
  rewrite Nat.mul_0_r, Nat.add_0_r. f_equal.
  rewrite <- seq_shift, map_map.
  apply map_ext. intros i.
  replace (numberIndex + GENES_PER_NUMBER * S i)
    with (numberIndex + GENES_PER_NUMBER + GENES_PER_NUMBER * i) by lia.
  reflexivity.
Qed.

Lemma decodeNumbers_for_ok (count : nat) :
  forall (genes : list Gene) (numberIndex : nat) (numbers : list number),
    numberIndex + GENES_PER_NUMBER * count = length genes ->
    decodeNumbers_for genes numberIndex numbers
    = Ok (numbers ++ decoded_from genes numberIndex count).
Proof.
  induction count as [|count IH]; intros genes numberIndex numbers Hlen;
    rewrite decodeNumbers_for_step.
  - destruct (lt_dec numberIndex (length genes)) as [Hlt|_]; [lia|].
    unfold decoded_from. cbn. rewrite app_nil_r. reflexivity.
  - destruct (lt_dec numberIndex (length genes)) as [_|Hge];
      [|unfold GENES_PER_NUMBER in Hlen; lia].
    rewrite decodeNumber_ok.
    + rewrite IH by (unfold GENES_PER_NUMBER in *; lia).
      rewrite decoded_from_S, <- app_assoc. reflexivity.
    + rewrite slice_length. unfold GENES_PER_NUMBER in *. lia.
Qed.

Lemma decodeNumbers_ok (genes : list Gene) :
  length genes mod GENES_PER_NUMBER = 0 ->
  decodeNumbers genes
  = Ok (decoded_from genes 0 (length genes / GENES_PER_NUMBER)).
Proof.
  intros Hmod. unfold decodeNumbers. rewrite Hmod. cbn [Nat.eqb negb].
  rewrite (decodeNumbers_for_ok (length genes / GENES_PER_NUMBER)).
  - reflexivity.
  - pose proof (Nat.div_mod_eq (length genes) GENES_PER_NUMBER) as Hdiv.
    rewrite Hmod, Nat.add_0_r in Hdiv. symmetry. exact Hdiv.
Qed.

Lemma decodeNumbers_throw (genes : list Gene) :
  length genes mod GENES_PER_NUMBER <> 0 ->
  decodeNumbers genes
  = Throw "Wrong number of genes in the numbers genome"%string.
Proof.
  intros Hmod. unfold decodeNumbers.
  apply Nat.eqb_neq in Hmod. rewrite Hmod. reflexivity.
Qed.

Lemma decoded_from_length (genes : list Gene) (numberIndex count : nat) :
  length (decoded_from genes numberIndex count) = count.
Proof. unfold decoded_from. rewrite length_map, length_seq. reflexivity. Qed.

Lemma decoded_from_nth (genes : list Gene) (numberIndex count i : nat) :
  i < count ->
  nth i (decoded_from genes numberIndex count) 0%R
  = spec_decodeNumber
      (slice genes (numberIndex + GENES_PER_NUMBER * i)
             (numberIndex + GENES_PER_NUMBER * i + GENES_PER_NUMBER)).
Proof.
  intros Hi. unfold decoded_from.
  rewrite (nth_indep _ 0%R
             (spec_decodeNumber
                (slice genes (numberIndex + GENES_PER_NUMBER * 0)
                       (numberIndex + GENES_PER_NUMBER * 0 + GENES_PER_NUMBER))))
    by (rewrite length_map, length_seq; exact Hi).
  rewrite (map_nth (fun i => spec_decodeNumber
                  (slice genes (numberIndex + GENES_PER_NUMBER * i)
                         (numberIndex + GENES_PER_NUMBER * i + GENES_PER_NUMBER)))).
  rewrite seq_nth by exact Hi. reflexivity.
Qed.

(** C7.  [decodeNumber] throws exactly when its input is not 8 genes long,
    and [decodeNumbers] throws exactly when the length of the block is not a
    multiple of 8; whenever one of them throws, it is the documented error
    and no result is produced. *)
Theorem decode_length_errors :
  (forall genes : list Gene,
      (throws (decodeNumber genes) <-> length genes <> 8)
      /\ (length genes <> 8 ->
          decodeNumber genes
          = Throw "Wrong number of genes in the number genome"%string
          /\ ~ returns (decodeNumber genes)))
  /\ (forall genes : list Gene,
      (throws (decodeNumbers genes) <-> length genes mod 8 <> 0)
      /\ (length genes mod 8 <> 0 ->
          decodeNumbers genes
          = Throw "Wrong number of genes in the numbers genome"%string
          /\ ~ returns (decodeNumbers genes))).
Proof.
  split; intros genes.
  - assert (Hthrow : length genes <> 8 ->
                     decodeNumber genes
                     = Throw "Wrong number of genes in the number genome"%string)
      by apply decodeNumber_throw.
    split; [split|].
    + intros Hthrows Hlen.
      apply (throws_not_returns Hthrows).
      rewrite decodeNumber_ok by exact Hlen. eexists. reflexivity.
    + intros Hlen. rewrite Hthrow by exact Hlen. eexists. reflexivity.
    + intros Hlen. split; [exact (Hthrow Hlen)|].
      apply throws_not_returns. rewrite Hthrow by exact Hlen.
      eexists. reflexivity.
  - assert (Hthrow : length genes mod 8 <> 0 ->
                     decodeNumbers genes
                     = Throw "Wrong number of genes in the numbers genome"%string)
      by apply decodeNumbers_throw.
    split; [split|].
    + intros Hthrows Hmod.
      apply (throws_not_returns Hthrows).
      rewrite decodeNumbers_ok by exact Hmod. eexists. reflexivity.
    + intros Hmod. rewrite Hthrow by exact Hmod. eexists. reflexivity.
    + intros Hmod. split; [exact (Hthrow Hmod)|].
      apply throws_not_returns. rewrite Hthrow by exact Hmod.
      eexists. reflexivity.
Qed.

(** The length-error theorem at a block of 3 genes, which is neither 8 genes
    long nor a multiple of 8. *)
Lemma decode_length_errors_witness :
  length [G1; G0; G1] <> 8
  /\ decodeNumber [G1; G0; G1]
     = Throw "Wrong number of genes in the number genome"%string
  /\ length [G1; G0; G1] mod 8 <> 0
  /\ decodeNumbers [G1; G0; G1]
     = Throw "Wrong number of genes in the numbers genome"%string.
Proof.
  assert (H8 : length [G1; G0; G1] <> 8) by (cbn; lia).
  assert (Hm : length [G1; G0; G1] mod 8 <> 0) by (cbn; lia).
  split; [exact H8|]. split.
  - exact (proj1 (proj2 (proj1 decode_length_errors [G1; G0; G1]) H8)).
  - split; [exact Hm|].
    exact (proj1 (proj2 (proj2 decode_length_errors [G1; G0; G1]) Hm)).
Defined.

(** ** The genome decoder *)

Lemma engine_slice_length (genome : Genome) :
  length (slice genome 0 ENGINE_FORMULA_GENES_NUM)
  = Nat.min 136 (length genome).
Proof.
  rewrite slice_length. change ENGINE_FORMULA_GENES_NUM with 136.
  rewrite !Nat.sub_0_r. reflexivity.
Qed.

Lemma wheels_slice_length (genome : Genome) :
  length (slice genome ENGINE_FORMULA_GENES_NUM
                (ENGINE_FORMULA_GENES_NUM + WHEELS_FORMULA_GENES_NUM))
  = Nat.min 136 (length genome - 136).
Proof.
  rewrite slice_length.
  change (ENGINE_FORMULA_GENES_NUM + WHEELS_FORMULA_GENES_NUM
          - ENGINE_FORMULA_GENES_NUM) with 136.
  reflexivity.
Qed.

Lemma decodeGenome_blocks (genome : Genome) :
  decodeGenome genome
  = (engineCoefficients <-
       decodeNumbers (slice genome 0 ENGINE_FORMULA_GENES_NUM) ;;
     wheelsCoefficients <-
       decodeNumbers (slice genome ENGINE_FORMULA_GENES_NUM
                            (ENGINE_FORMULA_GENES_NUM
                             + WHEELS_FORMULA_GENES_NUM)) ;;
     Ok {| engineFormulaCoefficients := engineCoefficients;
           wheelsFormulaCoefficients := wheelsCoefficients |}).
Proof. reflexivity. Qed.

Lemma block_lengths_mod (n : nat) :
  (Nat.min 136 n mod 8 <> 0 \/ Nat.min 136 (n - 136) mod 8 <> 0)
  <-> (n < 272 /\ n mod 8 <> 0).
Proof.
  pose proof (Nat.div_mod_eq n 8) as Hn.
  pose proof (Nat.mod_upper_bound n 8 ltac:(lia)) as Hn'.
  pose proof (Nat.div_mod_eq (Nat.min 136 n) 8) as He.
  pose proof (Nat.mod_upper_bound (Nat.min 136 n) 8 ltac:(lia)) as He'.
  pose proof (Nat.div_mod_eq (Nat.min 136 (n - 136)) 8) as Hw.
  pose proof (Nat.mod_upper_bound (Nat.min 136 (n - 136)) 8 ltac:(lia)) as Hw'.
  lia.
Qed.

Lemma decodeGenome_throw (genome : Genome) :
  length genome < 272 -> length genome mod 8 <> 0 ->
  decodeGenome genome
  = Throw "Wrong number of genes in the numbers genome"%string.
Proof.
  intros Hlt Hmod. rewrite decodeGenome_blocks.
  destruct (Nat.eq_dec (Nat.min 136 (length genome) mod 8) 0) as [He|He].
  - rewrite decodeNumbers_ok
      by (rewrite engine_slice_length; exact He).
    cbn [bind].
    rewrite decodeNumbers_throw; [reflexivity|].
    rewrite wheels_slice_length.
    pose proof (proj2 (block_lengths_mod (length genome)) (conj Hlt Hmod)).
    tauto.
  - rewrite decodeNumbers_throw; [reflexivity|].
    rewrite engine_slice_length. exact He.
Qed.

Lemma decodeGenome_ok (genome : Genome) :
  Nat.min 136 (length genome) mod 8 = 0 ->
  Nat.min 136 (length genome - 136) mod 8 = 0 ->
  decodeGenome genome
  = Ok {| engineFormulaCoefficients :=
            decoded_from (slice genome 0 136) 0
                         (Nat.min 136 (length genome) / 8);
          wheelsFormulaCoefficients :=
            decoded_from (slice genome 136 272) 0
                         (Nat.min 136 (length genome - 136) / 8) |}.
Proof.
  intros He Hw. rewrite decodeGenome_blocks.
  rewrite decodeNumbers_ok by (rewrite engine_slice_length; exact He).
  cbn [bind].
  rewrite decodeNumbers_ok by (rewrite wheels_slice_length; exact Hw).
  cbn [bind].
  rewrite engine_slice_length, wheels_slice_length. reflexivity.
Qed.

(** C1, as stated, fails: the 8-gene genome [0,0,0,0,0,0,0,1] is not 272
    genes long, yet [decodeGenome] returns a result for it, with a single
    engine coefficient and no wheels coefficient. *)
Lemma decodeGenome_short_genome_returns :
  length [G0; G0; G0; G0; G0; G0; G0; G1] <> GENOME_LENGTH
  /\ decodeGenome [G0; G0; G0; G0; G0; G0; G0; G1]
     = Ok {| engineFormulaCoefficients := [0.001%R];
             wheelsFormulaCoefficients := [] |}.
Proof.
  split; [cbn; lia|].
  rewrite decodeGenome_ok by reflexivity.
  cbn [length Nat.sub Nat.min Nat.div Nat.divmod fst].
  unfold decoded_from. cbn [seq map slice skipn firstn Nat.sub Nat.add Nat.mul GENES_PER_NUMBER].
  do 2 f_equal. f_equal.
  unfold spec_decodeNumber. cbn. closed_power.
Qed.

(** C1, amended.  [decodeGenome] throws the documented error exactly on the
    genomes whose length is below 272 and not a multiple of 8, and then no
    result is returned; every other genome, whatever its length, is decoded
    without error. *)
Theorem decodeGenome_error_lengths :
  forall genome : Genome,
    (throws (decodeGenome genome)
     <-> length genome < 272 /\ length genome mod 8 <> 0)
    /\ (length genome < 272 /\ length genome mod 8 <> 0 ->
        decodeGenome genome
        = Throw "Wrong number of genes in the numbers genome"%string
        /\ ~ returns (decodeGenome genome))
    /\ (~ (length genome < 272 /\ length genome mod 8 <> 0) ->
        returns (decodeGenome genome)).
Proof.
  intros genome.
  assert (Hthrow : length genome < 272 /\ length genome mod 8 <> 0 ->
                   decodeGenome genome
                   = Throw "Wrong number of genes in the numbers genome"%string)
    by (intros [Hlt Hmod]; apply decodeGenome_throw; assumption).
  split; [split|split].
  - intros Hthrows.
    destruct (Nat.eq_dec (Nat.min 136 (length genome) mod 8) 0) as [He|He];
      [destruct (Nat.eq_dec (Nat.min 136 (length genome - 136) mod 8) 0)
        as [Hw|Hw]|].
    + exfalso. apply (throws_not_returns Hthrows).
      rewrite (decodeGenome_ok genome He Hw). eexists. reflexivity.
    + apply block_lengths_mod. right. exact Hw.
    + apply block_lengths_mod. left. exact He.
  - intros Hbad. rewrite (Hthrow Hbad). eexists. reflexivity.
  - intros Hbad. split; [exact (Hthrow Hbad)|].
    apply throws_not_returns. rewrite (Hthrow Hbad). eexists. reflexivity.
  - intros Hgood.
    pose proof (block_lengths_mod (length genome)) as Hblocks.
    destruct (Nat.eq_dec (Nat.min 136 (length genome) mod 8) 0) as [He|He];
      [destruct (Nat.eq_dec (Nat.min 136 (length genome - 136) mod 8) 0)
        as [Hw|Hw]|]; try tauto.
    rewrite (decodeGenome_ok genome He Hw). eexists. reflexivity.
Qed.

(** The amended theorem at a genome of 3 genes. *)
Lemma decodeGenome_error_lengths_witness :
  (length [G1; G0; G1] < 272 /\ length [G1; G0; G1] mod 8 <> 0)
  /\ decodeGenome [G1; G0; G1]
     = Throw "Wrong number of genes in the numbers genome"%string.
Proof.
  assert (Hbad : length [G1; G0; G1] < 272 /\ length [G1; G0; G1] mod 8 <> 0)
    by (cbn; lia).
  split; [exact Hbad|].
  exact (proj1 (proj1 (proj2 (decodeGenome_error_lengths [G1; G0; G1])) Hbad)).
Defined.

(** C3.  On every genome of exactly 272 genes [decodeGenome] returns a
    result, with exactly 17 engine coefficients and 17 wheels coefficients;
    the engine coefficients are the decoding of the first 136 genes and the
    wheels coefficients the decoding of the next 136 genes, coefficient [i]
    of a block being [decodeNumber] of the genes 8i .. 8i+7 of that block. *)
Theorem decodeGenome_full_length :
  forall genome : Genome,
    length genome = 272 ->
    exists engine wheels : FormulaCoefficients,
      decodeGenome genome
      = Ok {| engineFormulaCoefficients := engine;
              wheelsFormulaCoefficients := wheels |}
      /\ length engine = 17
      /\ length wheels = 17
      /\ decodeNumbers (firstn 136 genome) = Ok engine
      /\ decodeNumbers (firstn 136 (skipn 136 genome)) = Ok wheels
      /\ (forall i, i < 17 ->
            decodeNumber (sub_block (firstn 136 genome) i)
            = Ok (nth i engine 0%R))
      /\ (forall i, i < 17 ->
            decodeNumber (sub_block (firstn 136 (skipn 136 genome)) i)
            = Ok (nth i wheels 0%R)).
Proof.
  intros genome Hlen.
  assert (He : length (firstn 136 genome) = 136)
    by (rewrite length_firstn; lia).
  assert (Hw : length (firstn 136 (skipn 136 genome)) = 136)
    by (rewrite length_firstn, length_skipn; lia).
  assert (Hsub : forall block i, length block = 136 -> i < 17 ->
            decodeNumber (sub_block block i)
            = Ok (nth i (decoded_from block 0 17) 0%R)).
  { intros block i Hblock Hi.
    rewrite decoded_from_nth by exact Hi.
    rewrite decodeNumber_ok; [reflexivity|].
    unfold sub_block. rewrite slice_length.
    unfold GENES_PER_NUMBER. lia. }
  exists (decoded_from (firstn 136 genome) 0 17),
         (decoded_from (firstn 136 (skipn 136 genome)) 0 17).
  split; [|split; [|split; [|split; [|split; [|split]]]]].
  - rewrite decodeGenome_ok by (rewrite Hlen; reflexivity).
    rewrite Hlen. reflexivity.
  - apply decoded_from_length.
  - apply decoded_from_length.
  - rewrite decodeNumbers_ok by (rewrite He; reflexivity).
    rewrite He. reflexivity.
  - rewrite decodeNumbers_ok by (rewrite Hw; reflexivity).
    rewrite Hw. reflexivity.
  - intros i Hi. apply Hsub; assumption.
  - intros i Hi. apply Hsub; assumption.
Qed.

(** The full-length theorem at the all-zero genome. *)
Lemma decodeGenome_full_length_witness :
  length (repeat G0 272) = 272
  /\ returns (decodeGenome (repeat G0 272)).
Proof.
  split; [reflexivity|].
  destruct (decodeGenome_full_length (repeat G0 272) eq_refl)
    as (engine & wheels & Hdecoded & _).
  rewrite Hdecoded. eexists. reflexivity.
Defined.

(** ** The formula evaluator *)

Lemma forEach_snoc {A St : Type} (callback : A -> nat -> St -> St)
    (l : list A) (x : A) (state : St) :
  forEach callback (l ++ [x]) state
  = callback x (length l) (forEach callback l state).
Proof.
  unfold forEach.
  change (length l) with (0 + length l) at 1.
  generalize 0 as index. revert state.
  induction l as [|y l IH]; intros state index; cbn [app forEach_from length].
  - rewrite Nat.add_0_r. reflexivity.
  - rewrite IH. f_equal. lia.
Qed.

Lemma sum_upto_ext (f g : nat -> number) (n : nat) :
  (forall i, i < n -> f i = g i) -> sum_upto f n = sum_upto g n.
Proof.
  induction n as [|n IH]; intros Hfg; cbn [sum_upto].
  - reflexivity.
  - rewrite IH by (intros i Hi; apply Hfg; lia).
    rewrite (Hfg n) by lia. reflexivity.
Qed.

Lemma forEach_weighted (variables coefficients : list number) :
  length coefficients <= length variables ->
  forEach (step_of variables) coefficients 0%R
  = sum_upto (fun i => (nth i coefficients 0 * nth i variables 0)%R)
             (length coefficients).
Proof.
  induction coefficients as [|c coefficients IH] using rev_ind; intros Hlen.
  - reflexivity.
  - rewrite length_app in *. cbn [length] in *.
    rewrite forEach_snoc, Nat.add_1_r. cbn [sum_upto].
    unfold step_of at 1.
    destruct (Nat.ltb_spec (length coefficients) (length variables)) as [_|Hge];
      [|lia].
    rewrite IH by lia.
    rewrite nth_middle.
    f_equal. apply sum_upto_ext. intros i Hi.
    rewrite app_nth1 by exact Hi. reflexivity.
Qed.

Lemma linearPolynomial_ok (coefficients variables : list number) :
  length coefficients = length variables + 1 ->
  linearPolynomial coefficients variables
  = Ok (spec_raw coefficients variables).
Proof.
  intros Hlen. unfold linearPolynomial.
  rewrite Hlen, Nat.eqb_refl. cbn [negb]. f_equal.
  change (forEach (step_of variables) coefficients 0%R
          = spec_raw coefficients variables).
  destruct coefficients as [|c coefficients _] using rev_ind.
  - cbn in Hlen. lia.
  - rewrite length_app in Hlen. cbn [length] in Hlen.
    assert (Hn : length coefficients = length variables) by lia.
    rewrite forEach_snoc. unfold step_of at 1.
    rewrite Hn, Nat.ltb_irrefl.
    rewrite forEach_weighted by lia.
    unfold spec_raw. rewrite <- Hn, nth_middle.
    f_equal. apply sum_upto_ext. intros i Hi.
    rewrite app_nth1 by exact Hi. reflexivity.
Qed.

Lemma linearPolynomial_throw (coefficients variables : list number) :
  length coefficients <> length variables + 1 ->
  linearPolynomial coefficients variables
  = Throw "Incompatible number polynomial coefficients and variables"%string.
Proof.
  intros Hlen. unfold linearPolynomial.
  apply Nat.eqb_neq in Hlen. rewrite Hlen. reflexivity.
Qed.

Lemma sigmoid_logistic (x : number) : sigmoid x = spec_normalized x.
Proof.
  unfold sigmoid, spec_normalized, Rpower, Math_E.
  rewrite ln_exp, Rmult_1_r. reflexivity.
Qed.

Lemma engineFormula_decoded (genome : Genome) (sensors : SensorValues)
    (decoded : DecodedGenome) :
  decodeGenome genome = Ok decoded ->
  engineFormula genome sensors
  = (rawResult <-
       linearPolynomial (engineFormulaCoefficients decoded) sensors ;;
     Ok (sigmoidToCategorical (sigmoid rawResult) None)).
Proof. intros Hdecoded. unfold engineFormula. rewrite Hdecoded. reflexivity. Qed.

Lemma wheelsFormula_decoded (genome : Genome) (sensors : SensorValues)
    (decoded : DecodedGenome) :
  decodeGenome genome = Ok decoded ->
  wheelsFormula genome sensors
  = (rawResult <-
       linearPolynomial (wheelsFormulaCoefficients decoded) sensors ;;
     Ok (sigmoidToCategorical (sigmoid rawResult) None)).
Proof. intros Hdecoded. unfold wheelsFormula. rewrite Hdecoded. reflexivity. Qed.

(** C4.  For coefficients of length n+1 and sensor values of length n the
    raw value is the sum over i < n of coefficients[i] x sensorValues[i]
    plus the final coefficient, taken as it is; the normalized value is
    1 / (1 + e^(-raw)); and [engineFormula], [wheelsFormula] return the
    categorical mapping of the normalized raw value of their own block of
    decoded coefficients and the sensor values they are both given. *)
Theorem formula_evaluation :
  (forall coefficients sensors : list number,
      length coefficients = length sensors + 1 ->
      linearPolynomial coefficients sensors
      = Ok (spec_raw coefficients sensors))
  /\ (forall raw : number, sigmoid raw = spec_normalized raw)
  /\ (forall (genome : Genome) (sensors : SensorValues)
             (decoded : DecodedGenome),
        decodeGenome genome = Ok decoded ->
        (length (engineFormulaCoefficients decoded) = length sensors + 1 ->
         engineFormula genome sensors
         = Ok (sigmoidToCategorical
                 (spec_normalized
                    (spec_raw (engineFormulaCoefficients decoded) sensors))
                 None))
        /\ (length (wheelsFormulaCoefficients decoded) = length sensors + 1 ->
            wheelsFormula genome sensors
            = Ok (sigmoidToCategorical
                    (spec_normalized
                       (spec_raw (wheelsFormulaCoefficients decoded) sensors))
                    None))).
Proof.
  split; [|split].
  - apply linearPolynomial_ok.
  - apply sigmoid_logistic.
  - intros genome sensors decoded Hdecoded. split; intros Hlen.
    + rewrite (engineFormula_decoded _ _ Hdecoded).
      rewrite linearPolynomial_ok by exact Hlen. cbn [bind].
      rewrite sigmoid_logistic. reflexivity.
    + rewrite (wheelsFormula_decoded _ _ Hdecoded).
      rewrite linearPolynomial_ok by exact Hlen. cbn [bind].
      rewrite sigmoid_logistic. reflexivity.
Qed.

(** The evaluation theorem at the coefficients [2, 3, 4] and the sensor
    values [5, 6]: the raw value is 2 x 5 + 3 x 6 + 4 = 32. *)
Lemma formula_evaluation_witness :
  length [2; 3; 4]%R = length [5; 6]%R + 1
  /\ linearPolynomial [2; 3; 4]%R [5; 6]%R = Ok 32%R.
Proof.
  split; [reflexivity|].
  rewrite (proj1 formula_evaluation [2; 3; 4]%R [5; 6]%R eq_refl).
  f_equal. unfold spec_raw. cbn. lra.
Defined.

Lemma sigmoidToCategorical_high (sigmoidValue : number) :
  (sigmoidValue > 0.75)%R -> sigmoidToCategorical sigmoidValue None = 1%Z.
Proof.
  intros Hv. unfold sigmoidToCategorical.
  destruct (Rgt_dec sigmoidValue (0.5 + 0.5 / 2)); [reflexivity|lra].
Qed.

Lemma sigmoidToCategorical_low (sigmoidValue : number) :
  (sigmoidValue < 0.25)%R -> sigmoidToCategorical sigmoidValue None = (-1)%Z.
Proof.
  intros Hv. unfold sigmoidToCategorical.
  destruct (Rgt_dec sigmoidValue (0.5 + 0.5 / 2)); [lra|].
  destruct (Rlt_dec sigmoidValue (0.5 - 0.5 / 2)); [reflexivity|lra].
Qed.

Lemma sigmoidToCategorical_middle (sigmoidValue : number) :
  (0.25 <= sigmoidValue <= 0.75)%R ->
  sigmoidToCategorical sigmoidValue None = 0%Z.
Proof.
  intros Hv. unfold sigmoidToCategorical.
  destruct (Rgt_dec sigmoidValue (0.5 + 0.5 / 2)); [lra|].
  destruct (Rlt_dec sigmoidValue (0.5 - 0.5 / 2)); [lra|reflexivity].
Qed.

Lemma sigmoidToCategorical_range (sigmoidValue : number)
    (margin : option number) :
  sigmoidToCategorical sigmoidValue margin = (-1)%Z
  \/ sigmoidToCategorical sigmoidValue margin = 0%Z
  \/ sigmoidToCategorical sigmoidValue margin = 1%Z.
Proof.
  unfold sigmoidToCategorical.
  destruct (Rgt_dec _ _); [tauto|].
  destruct (Rlt_dec _ _); tauto.
Qed.

(** C5.  With the default margin 0.5, whether left out or passed, the
    categorical mapping of a value v is +1 when v > 0.75, -1 when v < 0.25
    and 0 otherwise, the boundaries 0.75 and 0.25 and the centre 0.5
    included; 0.76 maps to 1, 0.24 to -1 and 0.6 to 0. *)
Theorem sigmoidToCategorical_thresholds :
  (forall (v : number) (margin : option number),
      margin = None \/ margin = Some 0.5%R ->
      ((v > 0.75)%R -> sigmoidToCategorical v margin = 1%Z)
      /\ ((v < 0.25)%R -> sigmoidToCategorical v margin = (-1)%Z)
      /\ (~ (v > 0.75)%R -> ~ (v < 0.25)%R ->
          sigmoidToCategorical v margin = 0%Z))
  /\ sigmoidToCategorical 0.75%R None = 0%Z
  /\ sigmoidToCategorical 0.25%R None = 0%Z
  /\ sigmoidToCategorical 0.5%R None = 0%Z
  /\ sigmoidToCategorical 0.76%R None = 1%Z
  /\ sigmoidToCategorical 0.24%R None = (-1)%Z
  /\ sigmoidToCategorical 0.6%R None = 0%Z.
Proof.
  split.
  - intros v margin Hmargin.
    assert (Hdefault : sigmoidToCategorical v margin
                       = sigmoidToCategorical v None)
      by (destruct Hmargin as [-> | ->]; reflexivity).
    rewrite Hdefault. split; [|split].
    + apply sigmoidToCategorical_high.
    + apply sigmoidToCategorical_low.
    + intros Hhigh Hlow. apply sigmoidToCategorical_middle. lra.
  - repeat split;
      first [ apply sigmoidToCategorical_middle; lra
            | apply sigmoidToCategorical_high; lra
            | apply sigmoidToCategorical_low; lra ].
Qed.

(** The threshold theorem at the value 0.9 with the margin left out. *)
Lemma sigmoidToCategorical_thresholds_witness :
  (0.9 > 0.75)%R /\ sigmoidToCategorical 0.9%R None = 1%Z.
Proof.
  assert (Hv : (0.9 > 0.75)%R) by lra.
  split; [exact Hv|].
  exact (proj1 (proj1 sigmoidToCategorical_thresholds 0.9%R None
                      (or_introl eq_refl)) Hv).
Defined.

(** C8.  When the number of coefficients is not the number of sensor values
    plus one, [linearPolynomial] throws, and the error reaches the caller of
    [engineFormula] and [wheelsFormula]: no category, 0 or other, is
    returned in its place. *)
Theorem length_mismatch_propagates :
  (forall coefficients sensors : list number,
      length coefficients <> length sensors + 1 ->
      linearPolynomial coefficients sensors
      = Throw "Incompatible number polynomial coefficients and variables"%string
      /\ ~ returns (linearPolynomial coefficients sensors))
  /\ (forall (genome : Genome) (sensors : SensorValues)
            (decoded : DecodedGenome),
        decodeGenome genome = Ok decoded ->
        (length (engineFormulaCoefficients decoded) <> length sensors + 1 ->
         engineFormula genome sensors
         = Throw "Incompatible number polynomial coefficients and variables"%string
         /\ ~ returns (engineFormula genome sensors))
        /\ (length (wheelsFormulaCoefficients decoded) <> length sensors + 1 ->
            wheelsFormula genome sensors
            = Throw "Incompatible number polynomial coefficients and variables"%string
            /\ ~ returns (wheelsFormula genome sensors))).
Proof.
  assert (Hno : forall (A : Type) (r : result A) (message : string),
             r = Throw message -> r = Throw message /\ ~ returns r).
  { intros A r message Hr. split; [exact Hr|].
    apply throws_not_returns. exists message. exact Hr. }
  split.
  - intros coefficients sensors Hlen. apply Hno.
    apply linearPolynomial_throw. exact Hlen.
  - intros genome sensors decoded Hdecoded. split; intros Hlen; apply Hno.
    + rewrite (engineFormula_decoded _ _ Hdecoded).
      rewrite linearPolynomial_throw by exact Hlen. reflexivity.
    + rewrite (wheelsFormula_decoded _ _ Hdecoded).
      rewrite linearPolynomial_throw by exact Hlen. reflexivity.
Qed.

Lemma decodeGenome_272 (genome : Genome) :
  length genome = 272 ->
  decodeGenome genome
  = Ok {| engineFormulaCoefficients :=
            decoded_from (firstn 136 genome) 0 17;
          wheelsFormulaCoefficients :=
            decoded_from (firstn 136 (skipn 136 genome)) 0 17 |}.
Proof.
  intros Hlen.
  rewrite decodeGenome_ok by (rewrite Hlen; reflexivity).
  rewrite Hlen. reflexivity.
Qed.

(** The mismatch theorem at two coefficients and two sensor values, and at
    the all-zero genome evaluated with no sensor value at all. *)
Lemma length_mismatch_propagates_witness :
  (length [1; 2]%R <> length [3; 4]%R + 1
   /\ linearPolynomial [1; 2]%R [3; 4]%R
      = Throw "Incompatible number polynomial coefficients and variables"%string)
  /\ engineFormula (repeat G0 272) []
     = Throw "Incompatible number polynomial coefficients and variables"%string.
Proof.
  assert (Hlen : length [1; 2]%R <> length [3; 4]%R + 1) by (cbn; lia).
  split; [split; [exact Hlen|]|].
  - exact (proj1 (proj1 length_mismatch_propagates [1; 2]%R [3; 4]%R Hlen)).
  - pose proof (decodeGenome_272 (repeat G0 272) eq_refl) as Hdecoded.
    refine (proj1 (proj1 (proj2 length_mismatch_propagates
                                (repeat G0 272) [] _ Hdecoded) _)).
    cbn [engineFormulaCoefficients]. rewrite decoded_from_length. cbn. lia.
Defined.

Lemma firstn_agree {A : Type} (n : nat) (l1 l2 : list A) :
  (forall i, i < n -> nth_error l1 i = nth_error l2 i) ->
  firstn n l1 = firstn n l2.
Proof.
  intros Hagree. apply nth_error_ext. intros i.
  rewrite !nth_error_firstn.
  destruct (Nat.ltb_spec i n) as [Hi|_]; [apply Hagree; exact Hi|reflexivity].
Qed.

Lemma slice_agree {A : Type} (start stop : nat) (l1 l2 : list A) :
  (forall i, start <= i < stop -> nth_error l1 i = nth_error l2 i) ->
  slice l1 start stop = slice l2 start stop.
Proof.
  intros Hagree. unfold slice. apply firstn_agree. intros i Hi.
  rewrite !nth_error_skipn. apply Hagree. lia.
Qed.

(** C9.  On a genome of exactly 272 genes and exactly 16 sensor values no
    length check fires: both blocks have a length that is a multiple of 8,
    every sub-block handed to [decodeNumber] has 8 genes, each formula has
    one coefficient more than there are sensor values; and [engineFormula]
    and [wheelsFormula] both return a result, which is -1, 0 or +1. *)
Theorem formulas_total :
  forall (genome : Genome) (sensors : SensorValues),
    length genome = 272 ->
    length sensors = 16 ->
    (exists category : FormulaResult,
        engineFormula genome sensors = Ok category
        /\ (category = (-1)%Z \/ category = 0%Z \/ category = 1%Z))
    /\ (exists category : FormulaResult,
          wheelsFormula genome sensors = Ok category
          /\ (category = (-1)%Z \/ category = 0%Z \/ category = 1%Z))
    /\ length (slice genome 0 136) mod 8 = 0
    /\ length (slice genome 136 272) mod 8 = 0
    /\ (forall i, i < 17 ->
          length (sub_block (slice genome 0 136) i) = 8
          /\ length (sub_block (slice genome 136 272) i) = 8)
    /\ (forall decoded : DecodedGenome,
          decodeGenome genome = Ok decoded ->
          length (engineFormulaCoefficients decoded) = length sensors + 1
          /\ length (wheelsFormulaCoefficients decoded) = length sensors + 1).
Proof.
  intros genome sensors Hgenome Hsensors.
  pose proof (decodeGenome_272 genome Hgenome) as Hdecoded.
  assert (He : length (slice genome 0 136) = 136)
    by (rewrite slice_length; lia).
  assert (Hw : length (slice genome 136 272) = 136)
    by (rewrite slice_length; lia).
  split; [|split; [|split; [|split; [|split]]]].
  - rewrite (engineFormula_decoded _ _ Hdecoded).
    rewrite linearPolynomial_ok
      by (cbn [engineFormulaCoefficients]; rewrite decoded_from_length; lia).
    cbn [bind]. eexists. split; [reflexivity|].
    apply sigmoidToCategorical_range.
  - rewrite (wheelsFormula_decoded _ _ Hdecoded).
    rewrite linearPolynomial_ok
      by (cbn [wheelsFormulaCoefficients]; rewrite decoded_from_length; lia).
    cbn [bind]. eexists. split; [reflexivity|].
    apply sigmoidToCategorical_range.
  - rewrite He. reflexivity.
  - rewrite Hw. reflexivity.
  - intros i Hi. unfold sub_block, GENES_PER_NUMBER.
    split.
    + rewrite slice_length, He. lia.
    + rewrite slice_length, Hw. lia.
  - intros decoded Hdecoded'. rewrite Hdecoded in Hdecoded'.
    injection Hdecoded' as <-. cbn [engineFormulaCoefficients
                                     wheelsFormulaCoefficients].
    rewrite !decoded_from_length. lia.
Qed.

(** The totality theorem at the all-zero genome and sixteen readings of 1. *)
Lemma formulas_total_witness :
  length (repeat G0 272) = 272
  /\ length (repeat 1%R 16) = 16
  /\ returns (engineFormula (repeat G0 272) (repeat 1%R 16))
  /\ returns (wheelsFormula (repeat G0 272) (repeat 1%R 16)).
Proof.
  split; [reflexivity|]. split; [reflexivity|].
  destruct (formulas_total (repeat G0 272) (repeat 1%R 16) eq_refl eq_refl)
    as ((e & He & _) & (w & Hw & _) & _).
  split; [exists e; exact He|exists w; exact Hw].
Defined.

(** C10.  Two genomes of exactly 272 genes that agree on the genes 0..135
    give the same [engineFormula] outcome on every sensor input, and two
    that agree on the genes 136..271 give the same [wheelsFormula] outcome:
    each formula depends on its own gene block only. *)
Theorem formulas_block_independence :
  forall genome1 genome2 : Genome,
    length genome1 = 272 ->
    length genome2 = 272 ->
    ((forall i, i < 136 -> nth_error genome1 i = nth_error genome2 i) ->
     forall sensors : SensorValues,
       engineFormula genome1 sensors = engineFormula genome2 sensors)
    /\ ((forall i, 136 <= i < 272 ->
           nth_error genome1 i = nth_error genome2 i) ->
        forall sensors : SensorValues,
          wheelsFormula genome1 sensors = wheelsFormula genome2 sensors).
Proof.
  intros genome1 genome2 Hlen1 Hlen2.
  pose proof (decodeGenome_272 genome1 Hlen1) as Hdecoded1.
  pose proof (decodeGenome_272 genome2 Hlen2) as Hdecoded2.
  split; intros Hagree sensors.
  - rewrite (engineFormula_decoded _ _ Hdecoded1).
    rewrite (engineFormula_decoded _ _ Hdecoded2).
    cbn [engineFormulaCoefficients].
    rewrite (@firstn_agree _ 136 genome1 genome2 Hagree). reflexivity.
  - rewrite (wheelsFormula_decoded _ _ Hdecoded1).
    rewrite (wheelsFormula_decoded _ _ Hdecoded2).
    cbn [wheelsFormulaCoefficients].
    change (firstn 136 (skipn 136 genome1)) with (slice genome1 136 272).
    change (firstn 136 (skipn 136 genome2)) with (slice genome2 136 272).
    rewrite (@slice_agree _ 136 272 genome1 genome2 Hagree). reflexivity.
Qed.

(** The independence theorem at two genomes with the same all-zero engine
    block and different wheels blocks. *)
Lemma formulas_block_independence_witness :
  length (repeat G0 272) = 272
  /\ length (repeat G0 136 ++ repeat G1 136) = 272
  /\ (forall i, i < 136 ->
        nth_error (repeat G0 272) i
        = nth_error (repeat G0 136 ++ repeat G1 136) i)
  /\ forall sensors : SensorValues,
       engineFormula (repeat G0 272) sensors
       = engineFormula (repeat G0 136 ++ repeat G1 136) sensors.
Proof.
  assert (Hagree : forall i, i < 136 ->
            nth_error (repeat G0 272) i
            = nth_error (repeat G0 136 ++ repeat G1 136) i).
  { intros i Hi.
    change (repeat G0 272) with (repeat G0 136 ++ repeat G0 136).
    rewrite !nth_error_app1 by (rewrite repeat_length; exact Hi).
    reflexivity. }
  split; [reflexivity|]. split; [reflexivity|]. split; [exact Hagree|].
  exact (proj1 (formulas_block_independence
                  (repeat G0 272) (repeat G0 136 ++ repeat G1 136)
                  eq_refl eq_refl) Hagree).
Defined.

(** ** The loss function *)

Lemma distance_planar (p q : NumVec3) : distance p q = spec_distance p q.
Proof.
  destruct p as [[x1 y1] z1], q as [[x2 y2] z2].
  unfold distance, spec_distance, spec_planar, px, pz. cbn [fst snd].
  f_equal. ring.
Qed.

Lemma loss_mean (wheels corners : RectanglePoints) :
  loss {| wheelsPosition := wheels; parkingLotCorners := corners |}
  = spec_loss wheels corners.
Proof.
  unfold loss, spec_loss. cbn [wheelsPosition parkingLotCorners].
  rewrite !distance_planar. reflexivity.
Qed.

Lemma spec_distance_same (p : NumVec3) : spec_distance p p = 0%R.
Proof.
  unfold spec_distance, spec_planar.
  replace ((px p - px p) * (px p - px p) + (pz p - pz p) * (pz p - pz p))%R
    with 0%R by ring.
  apply sqrt_0.
Qed.

Lemma spec_distance_nonneg (p q : NumVec3) : (0 <= spec_distance p q)%R.
Proof. unfold spec_distance, spec_planar. apply sqrt_pos. Qed.

Lemma spec_distance_offset (p : NumVec3) (y : number) :
  spec_distance (offset_3_4 p y) p = 5%R.
Proof.
  unfold spec_distance, spec_planar, offset_3_4, px, pz. cbn [fst snd].
  replace ((fst (fst p) + 3 - fst (fst p)) * (fst (fst p) + 3 - fst (fst p))
           + (snd p + 4 - snd p) * (snd p + 4 - snd p))%R
    with (5 * 5)%R by ring.
  apply sqrt_square. lra.
Qed.

Lemma spec_distance_with_y (p q : NumVec3) (y y' : number) :
  spec_distance (with_y p y) (with_y q y') = spec_distance p q.
Proof. reflexivity. Qed.

(** C6.  [loss] is the arithmetic mean of the four planar distances between
    the corners with matching labels, each computed from the x and z
    components alone, so that the y components have no effect on it; the
    loss of a rectangle against itself is 0, the loss is never negative,
    and when every wheel is at the offset (3, any y, 4) from its matching
    corner the loss is 5. *)
Theorem loss_properties :
  (forall wheels corners : RectanglePoints,
      loss {| wheelsPosition := wheels; parkingLotCorners := corners |}
      = spec_loss wheels corners)
  /\ (forall (wheels corners : RectanglePoints)
             (y1 y2 y3 y4 y5 y6 y7 y8 : number),
        loss {| wheelsPosition :=
                  {| fl := with_y (fl wheels) y1; fr := with_y (fr wheels) y2;
                     br := with_y (br wheels) y3; bl := with_y (bl wheels) y4 |};
                parkingLotCorners :=
                  {| fl := with_y (fl corners) y5; fr := with_y (fr corners) y6;
                     br := with_y (br corners) y7;
                     bl := with_y (bl corners) y8 |} |}
        = loss {| wheelsPosition := wheels; parkingLotCorners := corners |})
  /\ (forall rectangle : RectanglePoints,
        loss {| wheelsPosition := rectangle; parkingLotCorners := rectangle |}
        = 0%R)
  /\ (forall wheels corners : RectanglePoints,
        (0 <= loss {| wheelsPosition := wheels;
                      parkingLotCorners := corners |})%R)
  /\ (forall (corners : RectanglePoints) (y1 y2 y3 y4 : number),
        loss {| wheelsPosition :=
                  {| fl := offset_3_4 (fl corners) y1;
                     fr := offset_3_4 (fr corners) y2;
                     br := offset_3_4 (br corners) y3;
                     bl := offset_3_4 (bl corners) y4 |};
                parkingLotCorners := corners |}
        = 5%R).
Proof.
  split; [|split; [|split; [|split]]].
  - apply loss_mean.
  - intros wheels corners y1 y2 y3 y4 y5 y6 y7 y8.
    rewrite !loss_mean. unfold spec_loss. cbn [fl fr br bl].
    rewrite !spec_distance_with_y. reflexivity.
  - intros rectangle. rewrite loss_mean. unfold spec_loss.
    rewrite !spec_distance_same. lra.
  - intros wheels corners. rewrite loss_mean. unfold spec_loss.
    pose proof (spec_distance_nonneg (fl wheels) (fl corners)).
    pose proof (spec_distance_nonneg (fr wheels) (fr corners)).
    pose proof (spec_distance_nonneg (br wheels) (br corners)).
    pose proof (spec_distance_nonneg (bl wheels) (bl corners)).
    lra.
  - intros corners y1 y2 y3 y4. rewrite loss_mean. unfold spec_loss.
    cbn [fl fr br bl]. rewrite !spec_distance_offset. lra.
Qed.

(** * Further properties of the code *)

(** ** [binaryArrayToNumber] on runs of any length *)









(** ** [decodeNumber]: sign, range and zero *)

(** X3.  Flipping the sign gene of an 8-gene block negates the decoded
    number and changes nothing else. *)
Theorem decodeNumber_sign_flip :
  forall rest : list Gene,
    length rest = 7 ->
    exists magnitude : number,
      decodeNumber (G0 :: rest) = Ok magnitude
      /\ decodeNumber (G1 :: rest) = Ok (- magnitude)%R
      /\ (0 <= magnitude)%R.
Proof.
  intros rest Hlen.
  exists (spec_decodeNumber (G0 :: rest)).
  rewrite !decodeNumber_ok by (cbn [length]; rewrite Hlen; reflexivity).
  split; [reflexivity|]. split.
  - f_equal. unfold spec_decodeNumber, spec_sign, spec_exponent,
      spec_fraction, bit, number. cbn [nth]. ring.
  - unfold spec_decodeNumber.
    pose proof (spec_fraction_range (G0 :: rest)) as [Hf _].
    apply IZR_le in Hf.
    assert (Hp : (0 < powerRZ 10 (spec_exponent (G0 :: rest) - 3))%R)
      by (apply powerRZ_lt; lra).
    unfold spec_sign. cbn [nth]. nra.
Qed.

(** The sign theorem at the block x 111 1111. *)
Lemma decodeNumber_sign_flip_witness :
  length [G1; G1; G1; G1; G1; G1; G1] = 7
  /\ exists magnitude : number,
       decodeNumber [G0; G1; G1; G1; G1; G1; G1; G1] = Ok magnitude
       /\ decodeNumber [G1; G1; G1; G1; G1; G1; G1; G1] = Ok (- magnitude)%R.
Proof.
  split; [reflexivity|].
  destruct (decodeNumber_sign_flip [G1; G1; G1; G1; G1; G1; G1] eq_refl)
    as (magnitude & Hpos & Hneg & _).
  exists magnitude. split; assumption.
Defined.

Lemma powerRZ_10_biased (exponent : Z) :
  (0 <= exponent <= 7)%Z ->
  (powerRZ 10 (exponent - 3) * 1000 = IZR (10 ^ exponent))%R
  /\ (0 < powerRZ 10 (exponent - 3) <= 10000)%R.
Proof.
  intros Hrange.
  assert (Hcases : exponent = 0%Z \/ exponent = 1%Z \/ exponent = 2%Z
                   \/ exponent = 3%Z \/ exponent = 4%Z \/ exponent = 5%Z
                   \/ exponent = 6%Z \/ exponent = 7%Z) by lia.
  repeat (destruct Hcases as [-> | Hcases]); [..|subst exponent];
    cbn; cbv [Pos.to_nat Pos.iter_op Nat.add pow]; lra.
Qed.

Lemma spec_sign_unit (genes : list Gene) :
  spec_sign genes = 1%Z \/ spec_sign genes = (-1)%Z.
Proof. unfold spec_sign. destruct (nth 0 genes G0); [left|right]; reflexivity. Qed.



Lemma spec_fraction_zero (genes : list Gene) :
  spec_fraction genes = 0%Z
  <-> nth 4 genes G0 = G0 /\ nth 5 genes G0 = G0
      /\ nth 6 genes G0 = G0 /\ nth 7 genes G0 = G0.
Proof.
  unfold spec_fraction, bit.
  destruct (nth 4 genes G0), (nth 5 genes G0), (nth 6 genes G0),
    (nth 7 genes G0); cbn [gene_value]; split;
    first [ intros H; exfalso; lia
          | intros (H4 & H5 & H6 & H7); discriminate
          | intros _; repeat split; reflexivity
          | intros _; lia ].
Qed.

(** X5.  An 8-gene block decodes to 0 exactly when its four fraction genes
    (indices 4 to 7) are all 0: then the sign and exponent genes have no
    effect, and no other block decodes to 0. *)
Theorem decodeNumber_zero :
  forall genes : list Gene,
    length genes = 8 ->
    (decodeNumber genes = Ok 0%R
     <-> nth 4 genes G0 = G0 /\ nth 5 genes G0 = G0
         /\ nth 6 genes G0 = G0 /\ nth 7 genes G0 = G0).
Proof.
  intros genes Hlen. rewrite decodeNumber_ok by exact Hlen.
  rewrite <- spec_fraction_zero.
  destruct (powerRZ_10_biased (spec_exponent_range genes)) as [_ [Hp0 _]].
  unfold spec_decodeNumber, number. split.
  - intros Hzero. injection Hzero as Hzero. apply eq_IZR.
    destruct (spec_sign_unit genes) as [Hs | Hs]; rewrite Hs in Hzero; nra.
  - intros Hf. rewrite Hf. f_equal. lra.
Qed.

(** The zero theorem at the block 1 101 0000. *)
Lemma decodeNumber_zero_witness :
  length [G1; G1; G0; G1; G0; G0; G0; G0] = 8
  /\ decodeNumber [G1; G1; G0; G1; G0; G0; G0; G0] = Ok 0%R.
Proof.
  split; [reflexivity|].
  apply (proj2 (decodeNumber_zero [G1; G1; G0; G1; G0; G0; G0; G0] eq_refl)).
  repeat split.
Defined.

(** ** [decodeNumbers]: composition and size *)

Lemma Ok_inj {A : Type} (a b : A) : Ok a = Ok b -> a = b.
Proof. intros H. injection H as H. exact H. Qed.

Lemma slice_app_left {A : Type} (l1 l2 : list A) (start stop : nat) :
  stop <= length l1 ->
  slice (l1 ++ l2) start stop = slice l1 start stop.
Proof.
  intros Hstop. unfold slice.
  rewrite skipn_app, firstn_app, length_skipn.
  replace (stop - start - (length l1 - start)) with 0 by lia.
  cbn [firstn]. apply app_nil_r.
Qed.

Lemma slice_app_right {A : Type} (l1 l2 : list A) (start stop : nat) :
  slice (l1 ++ l2) (length l1 + start) (length l1 + stop)
  = slice l2 start stop.
Proof.
  unfold slice.
  rewrite skipn_app, skipn_all2 by lia. cbn [app].
  replace (length l1 + start - length l1) with start by lia.
  replace (length l1 + stop - (length l1 + start)) with (stop - start) by lia.
  reflexivity.
Qed.

Lemma decoded_from_app_left (genes1 genes2 : list Gene)
    (numberIndex count : nat) :
  numberIndex + GENES_PER_NUMBER * count <= length genes1 ->
  decoded_from (genes1 ++ genes2) numberIndex count
  = decoded_from genes1 numberIndex count.
Proof.
  intros Hfit. unfold decoded_from. apply map_ext_in. intros i Hi.
  apply in_seq in Hi. rewrite slice_app_left; [reflexivity|].
  unfold GENES_PER_NUMBER in *. nia.
Qed.

Lemma decoded_from_app_right (genes1 genes2 : list Gene)
    (numberIndex count : nat) :
  decoded_from (genes1 ++ genes2) (length genes1 + numberIndex) count
  = decoded_from genes2 numberIndex count.
Proof.
  unfold decoded_from. apply map_ext. intros i.
  rewrite <- !Nat.add_assoc, slice_app_right. reflexivity.
Qed.

Lemma decoded_from_add (genes : list Gene) (count1 count2 : nat) :
  forall numberIndex : nat,
    decoded_from genes numberIndex (count1 + count2)
    = decoded_from genes numberIndex count1
      ++ decoded_from genes (numberIndex + GENES_PER_NUMBER * count1) count2.
Proof.
  induction count1 as [|count1 IH]; intros numberIndex.
  - rewrite Nat.mul_0_r, Nat.add_0_r. reflexivity.
  - cbn [Nat.add]. rewrite !decoded_from_S, IH. cbn [app].
    replace (numberIndex + GENES_PER_NUMBER + GENES_PER_NUMBER * count1)
      with (numberIndex + GENES_PER_NUMBER * S count1) by lia.
    reflexivity.
Qed.

Lemma multiple_of_8 (n : nat) :
  n mod 8 = 0 -> n = GENES_PER_NUMBER * (n / GENES_PER_NUMBER).
Proof.
  intros Hmod. pose proof (Nat.div_mod_eq n 8) as Hdiv.
  rewrite Hmod, Nat.add_0_r in Hdiv. exact Hdiv.
Qed.

(** X6.  Decoding a block that starts with a whole number of 8-gene
    sub-blocks is decoding that prefix, then the rest, and appending the
    numbers; an error in the rest is the error of the whole. *)
Theorem decodeNumbers_app :
  forall genes1 genes2 : list Gene,
    length genes1 mod 8 = 0 ->
    decodeNumbers (genes1 ++ genes2)
    = (numbers1 <- decodeNumbers genes1 ;;
       numbers2 <- decodeNumbers genes2 ;;
       Ok (numbers1 ++ numbers2)).
Proof.
  intros genes1 genes2 Hmod1.
  pose proof (multiple_of_8 _ Hmod1) as Hlen1.
  rewrite (decodeNumbers_ok genes1 Hmod1). cbn [bind].
  destruct (Nat.eq_dec (length genes2 mod 8) 0) as [Hmod2|Hmod2].
  - pose proof (multiple_of_8 _ Hmod2) as Hlen2.
    assert (Hmod : length (genes1 ++ genes2) mod 8 = 0).
    { rewrite length_app, Hlen1, Hlen2. unfold GENES_PER_NUMBER.
      rewrite <- Nat.mul_add_distr_l, Nat.mul_comm. apply Nat.Div0.mod_mul. }
    rewrite (decodeNumbers_ok genes2 Hmod2), (decodeNumbers_ok _ Hmod).
    cbn [bind]. f_equal.
    replace (length (genes1 ++ genes2) / GENES_PER_NUMBER)
      with (length genes1 / GENES_PER_NUMBER
            + length genes2 / GENES_PER_NUMBER).
    + rewrite decoded_from_add. f_equal.
      * apply decoded_from_app_left. cbn [Nat.add]. rewrite <- Hlen1. lia.
      * cbn [Nat.add]. rewrite <- Hlen1.
        rewrite <- (Nat.add_0_r (length genes1)) at 1.
        apply decoded_from_app_right.
    + pose proof (multiple_of_8 _ Hmod) as Hlen.
      rewrite length_app in Hlen at 1.
      unfold GENES_PER_NUMBER in *. lia.
  - rewrite (decodeNumbers_throw genes2 Hmod2). cbn [bind].
    apply decodeNumbers_throw. rewrite length_app.
    pose proof (Nat.div_mod_eq (length genes2) 8) as Hd2.
    pose proof (Nat.mod_upper_bound (length genes2) 8 ltac:(lia)) as Hb2.
    pose proof (Nat.div_mod_eq (length genes1 + length genes2) 8) as Hd.
    pose proof (Nat.mod_upper_bound (length genes1 + length genes2) 8
                  ltac:(lia)) as Hb.
    unfold GENES_PER_NUMBER in *. lia.
Qed.

(** The composition theorem at an 8-gene prefix followed by 3 genes. *)
Lemma decodeNumbers_app_witness :
  length (repeat G1 8) mod 8 = 0
  /\ decodeNumbers (repeat G1 8 ++ [G0; G1; G0])
     = (numbers1 <- decodeNumbers (repeat G1 8) ;;
        numbers2 <- decodeNumbers [G0; G1; G0] ;;
        Ok (numbers1 ++ numbers2)).
Proof.
  split; [reflexivity|].
  exact (decodeNumbers_app (repeat G1 8) [G0; G1; G0] eq_refl).
Defined.



(** ** [decodeGenome] and the formulas on genomes of any length *)

Lemma slice_firstn {A : Type} (l : list A) (n start stop : nat) :
  stop <= n ->
  slice (firstn n l) start stop = slice l start stop.
Proof.
  intros Hstop. unfold slice.
  rewrite skipn_firstn_comm, firstn_firstn.
  replace (Nat.min (stop - start) (n - start)) with (stop - start) by lia.
  reflexivity.
Qed.

Lemma decodeGenome_firstn (genome : Genome) :
  decodeGenome genome = decodeGenome (firstn 272 genome).
Proof.
  rewrite !decodeGenome_blocks.
  change ENGINE_FORMULA_GENES_NUM with 136.
  change (136 + WHEELS_FORMULA_GENES_NUM) with 272.
  rewrite !slice_firstn by lia. reflexivity.
Qed.

(** X8.  Genes beyond the first 272 are never read: the decoded genome and
    the outcome of both formulas are those of the genome cut to its first
    272 genes. *)
Theorem genes_past_272_ignored :
  forall genome : Genome,
    decodeGenome genome = decodeGenome (firstn 272 genome)
    /\ (forall sensors : SensorValues,
          engineFormula genome sensors
          = engineFormula (firstn 272 genome) sensors)
    /\ (forall sensors : SensorValues,
          wheelsFormula genome sensors
          = wheelsFormula (firstn 272 genome) sensors).
Proof.
  intros genome. split; [apply decodeGenome_firstn|].
  split; intros sensors.
  - unfold engineFormula. rewrite (decodeGenome_firstn genome). reflexivity.
  - unfold wheelsFormula. rewrite (decodeGenome_firstn genome). reflexivity.
Qed.

Lemma decodeGenome_returns_blocks (genome : Genome) (decoded : DecodedGenome) :
  decodeGenome genome = Ok decoded ->
  Nat.min 136 (length genome) mod 8 = 0
  /\ Nat.min 136 (length genome - 136) mod 8 = 0.
Proof.
  intros Hdecoded.
  destruct (Nat.eq_dec (Nat.min 136 (length genome) mod 8) 0) as [He|He];
    [destruct (Nat.eq_dec (Nat.min 136 (length genome - 136) mod 8) 0)
      as [Hw|Hw]|].
  - split; assumption.
  - destruct (proj1 (block_lengths_mod (length genome)) (or_intror Hw))
      as [Hlt Hmod].
    rewrite (decodeGenome_throw genome Hlt Hmod) in Hdecoded.
    discriminate Hdecoded.
  - destruct (proj1 (block_lengths_mod (length genome)) (or_introl He))
      as [Hlt Hmod].
    rewrite (decodeGenome_throw genome Hlt Hmod) in Hdecoded.
    discriminate Hdecoded.
Qed.

(** X9.  Whenever [decodeGenome] returns, the engine formula has one
    coefficient for each 8 of the first 136 genes that exist and the wheels
    formula one for each 8 of the genes 136..271 that exist: never more
    than 17 each, and fewer on a genome shorter than 272. *)
Theorem decodeGenome_coefficient_counts :
  forall (genome : Genome) (decoded : DecodedGenome),
    decodeGenome genome = Ok decoded ->
    8 * length (engineFormulaCoefficients decoded)
    = Nat.min 136 (length genome)
    /\ 8 * length (wheelsFormulaCoefficients decoded)
       = Nat.min 136 (length genome - 136)
    /\ length (engineFormulaCoefficients decoded) <= 17
    /\ length (wheelsFormulaCoefficients decoded) <= 17.
Proof.
  intros genome decoded Hdecoded.
  destruct (decodeGenome_returns_blocks genome Hdecoded) as [He Hw].
  rewrite (decodeGenome_ok genome He Hw) in Hdecoded.
  apply Ok_inj in Hdecoded. subst decoded.
  unfold engineFormulaCoefficients, wheelsFormulaCoefficients.
  rewrite !decoded_from_length.
  pose proof (multiple_of_8 _ He) as He'.
  pose proof (multiple_of_8 _ Hw) as Hw'.
  unfold GENES_PER_NUMBER in *. lia.
Qed.

(** The count theorem at a genome of 144 genes: 17 engine coefficients and
    a single wheels coefficient. *)
Lemma decodeGenome_coefficient_counts_witness :
  exists decoded : DecodedGenome,
    decodeGenome (repeat G0 144) = Ok decoded
    /\ length (engineFormulaCoefficients decoded) = 17
    /\ length (wheelsFormulaCoefficients decoded) = 1.
Proof.
  pose proof (@decodeGenome_ok (repeat G0 144) eq_refl eq_refl) as Hok.
  destruct (decodeGenome (repeat G0 144)) as [decoded|message] eqn:Hdecoded;
    [|discriminate Hok].
  exists decoded. split; [reflexivity|].
  pose proof (decodeGenome_coefficient_counts (repeat G0 144) Hdecoded)
    as (He & Hw & _).
  change (Nat.min 136 (length (repeat G0 144))) with 136 in He.
  change (Nat.min 136 (length (repeat G0 144) - 136)) with 8 in Hw.
  split; lia.
Defined.

Lemma linearPolynomial_returns (coefficients variables : list number) :
  returns (linearPolynomial coefficients variables)
  <-> length coefficients = length variables + 1.
Proof.
  split.
  - intros Hreturns.
    destruct (Nat.eq_dec (length coefficients) (length variables + 1))
      as [Hlen|Hlen]; [exact Hlen|].
    exfalso. revert Hreturns. apply throws_not_returns.
    rewrite linearPolynomial_throw by exact Hlen. eexists. reflexivity.
  - intros Hlen. rewrite linearPolynomial_ok by exact Hlen.
    eexists. reflexivity.
Qed.

Lemma bind_category_returns (raw : result number) :
  returns (rawResult <- raw ;;
           Ok (sigmoidToCategorical (sigmoid rawResult) None))
  <-> returns raw.
Proof.
  destruct raw as [value|message]; cbn [bind]; split; intros [x Hx];
    try discriminate Hx; eexists; reflexivity.
Qed.

Lemma formulas_return_cases :
  forall (genome : Genome) (sensors : SensorValues),
    (returns (engineFormula genome sensors)
     <-> (272 <= length genome \/ length genome mod 8 = 0)
         /\ Nat.min 136 (length genome) = 8 * (length sensors + 1))
    /\ (returns (wheelsFormula genome sensors)
        <-> (272 <= length genome \/ length genome mod 8 = 0)
            /\ Nat.min 136 (length genome - 136)
               = 8 * (length sensors + 1)).
Proof.
  intros genome sensors.
  destruct (Nat.eq_dec (Nat.min 136 (length genome) mod 8) 0) as [He|He];
    [destruct (Nat.eq_dec (Nat.min 136 (length genome - 136) mod 8) 0)
      as [Hw|Hw]|].
  - pose proof (decodeGenome_ok genome He Hw) as Hdecoded.
    pose proof (multiple_of_8 _ He) as He'.
    pose proof (multiple_of_8 _ Hw) as Hw'.
    assert (Hgood : 272 <= length genome \/ length genome mod 8 = 0).
    { pose proof (block_lengths_mod (length genome)) as Hblocks.
      destruct (Nat.eq_dec (length genome mod 8) 0); [tauto|].
      destruct (le_lt_dec 272 (length genome)); [tauto|]. tauto. }
    rewrite (engineFormula_decoded _ _ Hdecoded).
    rewrite (wheelsFormula_decoded _ _ Hdecoded).
    rewrite !bind_category_returns, !linearPolynomial_returns.
    unfold engineFormulaCoefficients, wheelsFormulaCoefficients.
    rewrite !decoded_from_length.
    unfold GENES_PER_NUMBER in *. split; split; intros H; try split;
      try exact Hgood; lia.
  - destruct (proj1 (block_lengths_mod (length genome)) (or_intror Hw))
      as [Hlt Hmod].
    pose proof (decodeGenome_throw genome Hlt Hmod) as Hthrow.
    unfold engineFormula, wheelsFormula. rewrite Hthrow. cbn [bind].
    split; split; intros H;
      first [ destruct H as [value Hvalue]; discriminate Hvalue | lia ].
  - destruct (proj1 (block_lengths_mod (length genome)) (or_introl He))
      as [Hlt Hmod].
    pose proof (decodeGenome_throw genome Hlt Hmod) as Hthrow.
    unfold engineFormula, wheelsFormula. rewrite Hthrow. cbn [bind].
    split; split; intros H;
      first [ destruct H as [value Hvalue]; discriminate Hvalue | lia ].
Qed.

(** X10.  [engineFormula] returns a category exactly when the genome can be
    decoded (its length is at least 272 or a multiple of 8) and the genes
    0..135 that exist make up one coefficient more than there are sensor
    values; [wheelsFormula] likewise with the genes 136..271; in every
    other case the formula throws.  With the car's 16 sensor values,
    [wheelsFormula] therefore returns exactly on the genomes of 272 genes
    or more, while [engineFormula] also returns on the shorter genomes of
    at least 136 genes whose length is a multiple of 8. *)
Theorem formulas_return_exactly :
  forall (genome : Genome) (sensors : SensorValues),
    (returns (engineFormula genome sensors)
     <-> (272 <= length genome \/ length genome mod 8 = 0)
         /\ Nat.min 136 (length genome) = 8 * (length sensors + 1))
    /\ (returns (wheelsFormula genome sensors)
        <-> (272 <= length genome \/ length genome mod 8 = 0)
            /\ Nat.min 136 (length genome - 136)
               = 8 * (length sensors + 1))
    /\ (length sensors = 16 ->
        (returns (wheelsFormula genome sensors) <-> 272 <= length genome)
        /\ (returns (engineFormula genome sensors)
            <-> 272 <= length genome
                \/ (136 <= length genome /\ length genome mod 8 = 0))).
Proof.
  intros genome sensors.
  destruct (formulas_return_cases genome sensors) as [Hengine Hwheels].
  split; [exact Hengine|]. split; [exact Hwheels|].
  intros Hsensors.
  rewrite Hengine, Hwheels, Hsensors. clear Hengine Hwheels.
  pose proof (Nat.div_mod_eq (length genome) 8) as Hdiv.
  pose proof (Nat.mod_upper_bound (length genome) 8 ltac:(lia)) as Hbound.
  split; split; intros H; lia.
Qed.

(** The characterisation at a genome of 136 genes and sixteen readings of 1:
    the engine formula returns and the wheels formula does not. *)
Lemma formulas_return_exactly_witness :
  length (repeat 1%R 16) = 16
  /\ returns (engineFormula (repeat G0 136) (repeat 1%R 16))
  /\ ~ returns (wheelsFormula (repeat G0 136) (repeat 1%R 16)).
Proof.
  split; [reflexivity|].
  destruct (proj2 (proj2 (formulas_return_exactly
                            (repeat G0 136) (repeat 1%R 16))) eq_refl)
    as [Hwheels Hengine].
  split.
  - apply Hengine. right. split; [cbn; lia|reflexivity].
  - intros Hreturns. apply Hwheels in Hreturns. cbn in Hreturns. lia.
Defined.

(** X11.  The two formulas are one evaluator applied to two blocks: on a
    genome of 272 genes, exchanging the two 136-gene blocks exchanges the
    outcomes of [engineFormula] and [wheelsFormula]. *)
Theorem formulas_block_swap :
  forall (genome : Genome) (sensors : SensorValues),
    length genome = 272 ->
    engineFormula (skipn 136 genome ++ firstn 136 genome) sensors
    = wheelsFormula genome sensors
    /\ wheelsFormula (skipn 136 genome ++ firstn 136 genome) sensors
       = engineFormula genome sensors.
Proof.
  intros genome sensors Hlen.
  assert (Hskip : length (skipn 136 genome) = 136)
    by (rewrite length_skipn; lia).
  assert (Hswapped : length (skipn 136 genome ++ firstn 136 genome) = 272)
    by (rewrite length_app, length_firstn, Hskip; lia).
  rewrite (engineFormula_decoded _ _ (decodeGenome_272 _ Hswapped)).
  rewrite (wheelsFormula_decoded _ _ (decodeGenome_272 _ Hswapped)).
  rewrite (engineFormula_decoded _ _ (decodeGenome_272 _ Hlen)).
  rewrite (wheelsFormula_decoded _ _ (decodeGenome_272 _ Hlen)).
  unfold engineFormulaCoefficients, wheelsFormulaCoefficients.
  assert (Hfirst : firstn 136 (skipn 136 genome ++ firstn 136 genome)
                   = firstn 136 (skipn 136 genome)).
  { rewrite firstn_app, Hskip. cbn [Nat.sub firstn]. apply app_nil_r. }
  assert (Hsecond : firstn 136 (skipn 136 (skipn 136 genome
                                           ++ firstn 136 genome))
                    = firstn 136 genome).
  { rewrite skipn_app, Hskip, (skipn_all2 (n := 136)) by lia.
    rewrite Nat.sub_diag. cbn [skipn app].
    rewrite firstn_firstn. reflexivity. }
  rewrite Hfirst, Hsecond. split; reflexivity.
Qed.

(** The swap theorem at a genome with an all-zero engine block and an
    all-one wheels block. *)
Lemma formulas_block_swap_witness :
  length (repeat G0 136 ++ repeat G1 136) = 272
  /\ forall sensors : SensorValues,
       engineFormula (skipn 136 (repeat G0 136 ++ repeat G1 136)
                      ++ firstn 136 (repeat G0 136 ++ repeat G1 136)) sensors
       = wheelsFormula (repeat G0 136 ++ repeat G1 136) sensors.
Proof.
  split; [reflexivity|]. intros sensors.
  exact (proj1 (formulas_block_swap (repeat G0 136 ++ repeat G1 136)
                  sensors eq_refl)).
Defined.

(** ** The logistic squash and the dead zone *)












(** ** [linearPolynomial]: linearity and the bias term *)


Lemma sum_upto_zero (f : nat -> number) (n : nat) :
  (forall i, i < n -> f i = 0%R) -> sum_upto f n = 0%R.
Proof.
  induction n as [|n IH]; intros Hzero; cbn [sum_upto].
  - reflexivity.
  - rewrite IH by (intros i Hi; apply Hzero; lia).
    rewrite (Hzero n) by lia. unfold number. ring.
Qed.





Lemma spec_raw_zero_sensors (coefficients : list number) (n : nat) :
  spec_raw coefficients (repeat 0%R n) = nth n coefficients 0%R.
Proof.
  unfold spec_raw. rewrite repeat_length.
  rewrite sum_upto_zero.
  - unfold number. ring.
  - intros i _. rewrite nth_repeat. unfold number. ring.
Qed.

(** X16.  When every sensor reads 0 the raw value is the bias, that is the
    last coefficient, whatever the other coefficients are. *)
Theorem linearPolynomial_zero_sensors :
  forall (coefficients : list number) (n : nat),
    length coefficients = n + 1 ->
    linearPolynomial coefficients (repeat 0%R n)
    = Ok (nth n coefficients 0%R).
Proof.
  intros coefficients n Hlen.
  rewrite linearPolynomial_ok by (rewrite repeat_length; exact Hlen).
  rewrite spec_raw_zero_sensors. reflexivity.
Qed.

(** The zero-sensor theorem at the coefficients [2, 3, 4]. *)
Lemma linearPolynomial_zero_sensors_witness :
  length [2; 3; 4]%R = 2 + 1
  /\ linearPolynomial [2; 3; 4]%R (repeat 0%R 2) = Ok 4%R.
Proof.
  split; [reflexivity|].
  exact (linearPolynomial_zero_sensors [2; 3; 4]%R 2 eq_refl).
Defined.

(** X17.  On a genome of 272 genes and 16 sensors that all read 0, each
    formula returns the category of the sigmoid of its bias alone, the
    number decoded from the last 8 genes of its block (genes 128..135 for
    the engine, 264..271 for the wheels). *)
Theorem formulas_zero_sensors :
  forall genome : Genome,
    length genome = 272 ->
    exists engineBias wheelsBias : number,
      decodeNumber (slice genome 128 136) = Ok engineBias
      /\ decodeNumber (slice genome 264 272) = Ok wheelsBias
      /\ engineFormula genome (repeat 0%R 16)
         = Ok (sigmoidToCategorical (sigmoid engineBias) None)
      /\ wheelsFormula genome (repeat 0%R 16)
         = Ok (sigmoidToCategorical (sigmoid wheelsBias) None).
Proof.
  intros genome Hlen.
  pose proof (decodeGenome_272 genome Hlen) as Hdecoded.
  exists (spec_decodeNumber (slice genome 128 136)),
         (spec_decodeNumber (slice genome 264 272)).
  split; [|split; [|split]].
  - apply decodeNumber_ok. rewrite slice_length.
    unfold GENES_PER_NUMBER. lia.
  - apply decodeNumber_ok. rewrite slice_length.
    unfold GENES_PER_NUMBER. lia.
  - rewrite (engineFormula_decoded _ _ Hdecoded).
    unfold engineFormulaCoefficients.
    rewrite linearPolynomial_ok
      by (rewrite decoded_from_length, repeat_length; reflexivity).
    rewrite spec_raw_zero_sensors.
    cbn [bind]. rewrite decoded_from_nth by lia.
    change (0 + GENES_PER_NUMBER * 16) with 128.
    change (128 + GENES_PER_NUMBER) with 136.
    rewrite (slice_firstn genome (n := 136)) by lia. reflexivity.
  - rewrite (wheelsFormula_decoded _ _ Hdecoded).
    unfold wheelsFormulaCoefficients.
    rewrite linearPolynomial_ok
      by (rewrite decoded_from_length, repeat_length; reflexivity).
    rewrite spec_raw_zero_sensors.
    cbn [bind]. rewrite decoded_from_nth by lia.
    change (0 + GENES_PER_NUMBER * 16) with 128.
    change (128 + GENES_PER_NUMBER) with 136.
    change (firstn 136 (skipn 136 genome)) with (slice genome 136 272).
    do 3 f_equal. unfold slice.
    rewrite skipn_firstn_comm, firstn_firstn, skipn_skipn. reflexivity.
Qed.

(** The zero-sensor theorem for the formulas at the all-zero genome. *)
Lemma formulas_zero_sensors_witness :
  length (repeat G0 272) = 272
  /\ exists engineBias : number,
       decodeNumber (slice (repeat G0 272) 128 136) = Ok engineBias
       /\ engineFormula (repeat G0 272) (repeat 0%R 16)
          = Ok (sigmoidToCategorical (sigmoid engineBias) None).
Proof.
  split; [reflexivity|].
  destruct (formulas_zero_sensors (repeat G0 272) eq_refl)
    as (engineBias & wheelsBias & He & _ & Hformula & _).
  exists engineBias. split; assumption.
Defined.




(** ** [loss]: symmetry, translation and the zero set *)

Lemma spec_distance_sym (p q : NumVec3) :
  spec_distance p q = spec_distance q p.
Proof.
  unfold spec_distance, spec_planar. f_equal. unfold number. ring.
Qed.

Lemma spec_distance_translate (shift p q : NumVec3) :
  spec_distance (translate_point shift p) (translate_point shift q)
  = spec_distance p q.
Proof.
  unfold spec_distance, spec_planar, translate_point, px, pz.
  cbn [fst snd]. f_equal. unfold number. ring.
Qed.


(** X19.  [loss] does not change when the wheels and the parking lot
    exchange their roles, nor when both are moved by the same vector. *)
Theorem loss_symmetric_translation_invariant :
  (forall wheels corners : RectanglePoints,
      loss {| wheelsPosition := wheels; parkingLotCorners := corners |}
      = loss {| wheelsPosition := corners; parkingLotCorners := wheels |})
  /\ (forall (shift : NumVec3) (wheels corners : RectanglePoints),
        loss {| wheelsPosition := translate shift wheels;
                parkingLotCorners := translate shift corners |}
        = loss {| wheelsPosition := wheels; parkingLotCorners := corners |}).
Proof.
  split.
  - intros wheels corners. rewrite !loss_mean. unfold spec_loss.
    rewrite (spec_distance_sym (fl wheels)), (spec_distance_sym (fr wheels)),
      (spec_distance_sym (br wheels)), (spec_distance_sym (bl wheels)).
    reflexivity.
  - intros shift wheels corners. rewrite !loss_mean.
    unfold spec_loss, translate. cbn [fl fr br bl].
    rewrite !spec_distance_translate. reflexivity.
Qed.



(** ** Flipping the sign genes of a genome *)










